(** * ConvertToCzAndSingleGates

    A shallow embedding of [cirq/circuits/convert_to_cz_and_single_gates.py]:
    the point optimizer that rewrites an operation into CZ gates and single
    qubit gates.  The three methods of the class, [_convert_one], [convert]
    and [optimization_at], are translated line by line; the protocols they
    call into ([protocols.unitary], [protocols.decompose_once],
    [decompositions.two_qubit_matrix_to_operations],
    [ops.MeasurementGate.is_measurement] and [repr]) are the fields of a
    type class, so every theorem holds for all implementations of them. *)

From Stdlib Require Import List String Bool Arith ZArith QArith Lia.
Import ListNotations.

Set Implicit Arguments.
Set Warnings "-register-all".

Close Scope Q_scope.
Open Scope nat_scope.
Open Scope string_scope.
Open Scope list_scope.

(** ** Data model *)

(** The exponent of an [EigenGate]: a number, or a symbol still to be
    resolved.  Numbers are compared exactly, as Python compares [1.0 == 1]. *)
Inductive Exponent : Type :=
| Num (value : Q)
| Symbol (name : string).

(** [exponent == 1] *)
Definition exponent_is_one (exponent : Exponent) : bool :=
  match exponent with
  | Num value => Qeq_bool value 1
  | Symbol _ => false
  end.

(** The gates the converter tells apart: [isinstance(gate, ops.CZPowGate)]
    or anything else, named by its class. *)
Inductive Gate : Type :=
| CZPowGate (exponent : Exponent)
| OtherGate (class_name : string).

(** The configuration stored by [__init__]. *)
Record ConvertToCzAndSingleGates : Type := {
  ignore_failures : bool;
  allow_partial_czs : bool
}.

(** [__init__]: an argument that is not given is [False]. *)
Definition __init__ (ignore_failures allow_partial_czs : option bool)
  : ConvertToCzAndSingleGates :=
  {| ignore_failures :=
       match ignore_failures with Some flag => flag | None => false end;
     allow_partial_czs :=
       match allow_partial_czs with Some flag => flag | None => false end |}.

(** What a call can raise. *)
Inductive Exception : Type :=
| TypeError (message : string).

(** How a call ends.  [OutOfFuel] stands for a recursion that has not
    bottomed out within the given depth. *)
Inductive Outcome (A : Type) : Type :=
| Returns (value : A)
| Raises (e : Exception)
| OutOfFuel.

Arguments Raises {A} e.
Arguments OutOfFuel {A}.

Section Converter.

(** Qubit identifiers and unitary matrices are only handed through. *)
Variables Qid Matrix : Type.

(** An operation is an object: [oid] is its identity (Python's [id]), the
    rest is what the converter reads from it, [op.gate] when it is a
    [GateOperation], and [op.qubits]. *)
Inductive Operation : Type :=
| GateOperation (oid : nat) (gate : Gate) (qubits : list Qid)
| OtherOperation (oid : nat) (qubits : list Qid).

Definition oid (op : Operation) : nat :=
  match op with
  | GateOperation i _ _ => i
  | OtherOperation i _ => i
  end.

Definition qubits (op : Operation) : list Qid :=
  match op with
  | GateOperation _ _ qs => qs
  | OtherOperation _ qs => qs
  end.

(** [ops.OP_TREE]: an operation, or a sequence of trees. *)
Inductive OP_TREE : Type :=
| Leaf (op : Operation)
| Node (subtrees : list OP_TREE).

(** Modelled from the spec: the tree-flattening utility
    [ops.flatten_op_tree], which is not in this module.  [convert] hands
    every element it yields to itself as an operation, so the elements
    are the operations of the tree, left to right; on a sequence of
    operations these are its immediate children. *)
Fixpoint flatten_op_tree (root : OP_TREE) : list Operation :=
  match root with
  | Leaf op => [op]
  | Node subtrees => flat_map flatten_op_tree subtrees
  end.

(** [converted is op]: the tree is that very object. *)
Definition is_ (converted : OP_TREE) (op : Operation) : bool :=
  match converted with
  | Leaf o => Nat.eqb (oid o) (oid op)
  | Node _ => false
  end.

(** The invocations of the two collaborators that rewrite an operation. *)
Inductive Call : Type :=
| CallSynthesize (q0 q1 : Qid) (mat : Matrix) (allow_partial_czs : bool)
| CallDecomposeOnce (op : Operation).

(** A run: the collaborator calls made, in order, and how it ended. *)
Record Run (A : Type) : Type := {
  calls : list Call;
  outcome : Outcome A
}.

Definition ret {A : Type} (a : A) : Run A :=
  {| calls := []; outcome := Returns a |}.

Definition raise {A : Type} (e : Exception) : Run A :=
  {| calls := []; outcome := Raises e |}.

Definition bind {A B : Type} (m : Run A) (f : A -> Run B) : Run B :=
  match outcome m with
  | Returns a =>
      {| calls := calls m ++ calls (f a); outcome := outcome (f a) |}
  | Raises e => {| calls := calls m; outcome := Raises e |}
  | OutOfFuel => {| calls := calls m; outcome := OutOfFuel |}
  end.

Notation "x <- m ;; k" := (bind m (fun x => k))
  (at level 61, m at next level, right associativity).

(** A list comprehension [[f(e) for e in l]]: left to right, the first
    exception ends it. *)
Fixpoint comprehension {A B : Type} (f : A -> Run B) (l : list A)
  : Run (list B) :=
  match l with
  | [] => ret []
  | e :: rest =>
      y <- f e ;;
      ys <- comprehension f rest ;;
      ret (y :: ys)
  end.

(** The protocols of the other modules, which the converter only calls:
    [ops.MeasurementGate.is_measurement], [protocols.unitary(op, None)],
    [decompositions.two_qubit_matrix_to_operations],
    [protocols.decompose_once(op, None)] and [repr].  The synthesis and
    the one-level decomposition build a sequence of trees; what they hand
    back is a new object, never the operation they were called with. *)
Class Protocols : Type := {
  is_measurement : Operation -> bool;
  unitary : Operation -> option Matrix;
  two_qubit_matrix_to_operations :
    Qid -> Qid -> Matrix -> bool -> list OP_TREE;
  decompose_once : Operation -> option (list OP_TREE);
  repr : Operation -> string
}.

Context {P : Protocols}.

Definition synthesize (q0 q1 : Qid) (mat : Matrix) (partial : bool)
  : Run (list OP_TREE) :=
  {| calls := [CallSynthesize q0 q1 mat partial];
     outcome := Returns (two_qubit_matrix_to_operations q0 q1 mat partial) |}.

Definition decompose (op : Operation) : Run (option (list OP_TREE)) :=
  {| calls := [CallDecomposeOnce op];
     outcome := Returns (decompose_once op) |}.

Definition unconvertible (op : Operation) : Exception :=
  TypeError ("Don't know how to work with " ++ repr op ++ ". "
             ++ "It isn't composite or an operation with a "
             ++ "known unitary effect on 1 or 2 qubits.").

(** ** The converter *)

Variable self : ConvertToCzAndSingleGates.

(** The first test of [_convert_one]: a [GateOperation] whose gate is a
    [CZPowGate], kept when partial CZs are allowed or the exponent is 1. *)
Definition is_kept_cz (op : Operation) : bool :=
  match op with
  | GateOperation _ (CZPowGate exponent) _ =>
      allow_partial_czs self || exponent_is_one exponent
  | _ => false
  end.

Definition _convert_one (op : Operation) : Run OP_TREE :=
  (* Check if this is a CZ *)
  if is_kept_cz op then ret (Leaf op)
  (* Measurement? *)
  else if is_measurement op then ret (Leaf op)
  else
    (* Known matrix? *)
    match unitary op, qubits op with
    | Some _, [_] => ret (Leaf op)
    | Some mat, [q0; q1] =>
        synthesized <- synthesize q0 q1 mat false ;;
        ret (Node synthesized)
    | _, _ =>
        (* Provides a decomposition? *)
        decomposed <- decompose op ;;
        match decomposed with
        | Some subtrees => ret (Node subtrees)
        | None =>
            (* Just let it be? *)
            if ignore_failures self then ret (Leaf op)
            else raise (unconvertible op)
        end
    end.

Fixpoint convert (fuel : nat) (op : Operation) : Run OP_TREE :=
  match fuel with
  | 0 => {| calls := []; outcome := OutOfFuel |}
  | S fuel' =>
      converted <- _convert_one op ;;
      if is_ converted op then ret converted
      else
        results <- comprehension (convert fuel')
                     (flatten_op_tree converted) ;;
        ret (Node results)
  end.

(** Modelled from the spec: the rewrite summary
    [PointOptimizationSummary], declared in another module: the cleared
    span, the replacement operations and the cleared qubits, as
    [optimization_at] passes them. *)
Record PointOptimizationSummary : Type := {
  clear_span : Z;
  new_operations : OP_TREE;
  clear_qubits : list Qid
}.

(** The operations a summary puts into the circuit: the flattened
    sequence of its new operations. *)
Definition replacement (summary : PointOptimizationSummary)
  : list Operation :=
  flatten_op_tree (new_operations summary).

Definition Circuit : Type := list (list Operation).

Definition optimization_at (fuel : nat) (circuit : Circuit) (index : Z)
    (op : Operation) : Run (option PointOptimizationSummary) :=
  converted <- convert fuel op ;;
  if is_ converted op then ret None
  else ret (Some {| clear_span := 1;
                    new_operations := converted;
                    clear_qubits := qubits op |}).

End Converter.

Arguments ret {Qid Matrix A} a.
Arguments raise {Qid Matrix A} e.
Arguments CallDecomposeOnce {Qid Matrix} op.
Arguments Leaf {Qid} op.
Arguments Node {Qid} subtrees.
Arguments flatten_op_tree {Qid} root.

Notation "x <- m ;; k" := (bind m (fun x => k))
  (at level 61, m at next level, right associativity).

(** ** The vocabulary of the statements *)

Section Vocabulary.

Context {Qid Matrix : Type} {P : Protocols Qid Matrix}.
Variable self : ConvertToCzAndSingleGates.

(** [mat is not None and len(op.qubits) == n] *)
Definition has_matrix_on (n : nat) (op : Operation Qid) : bool :=
  match unitary op with
  | Some _ => Nat.eqb (List.length (qubits op)) n
  | None => false
  end.

(** The operations [_convert_one] keeps as they are: a kept CZ, a
    measurement, a one qubit operation with a known matrix. *)
Definition is_legal (op : Operation Qid) : bool :=
  is_kept_cz self op || is_measurement op || has_matrix_on 1 op.

(** The operations the last test of [_convert_one] lets through: nothing
    applied to them and [ignore_failures] is set. *)
Definition passed_through (op : Operation Qid) : Prop :=
  ignore_failures self = true /\
  is_legal op = false /\
  has_matrix_on 2 op = false /\
  decompose_once op = None.

(** [isinstance(op, ops.GateOperation)] and
    [isinstance(op.gate, ops.CZPowGate)] *)
Definition is_cz_pow_operation (op : Operation Qid) : bool :=
  match op with
  | GateOperation _ (CZPowGate _) _ => true
  | _ => false
  end.

(** Whether a call is one of the two qubit synthesis, and in which mode. *)
Definition is_synthesis (c : Call Qid Matrix) : bool :=
  match c with
  | CallSynthesize _ _ _ _ => true
  | CallDecomposeOnce _ => false
  end.

Definition is_partial_synthesis (c : Call Qid Matrix) : bool :=
  match c with
  | CallSynthesize _ _ _ partial => partial
  | CallDecomposeOnce _ => false
  end.

(** A call that the tests before it allow: the synthesis is called
    without partial CZs, on the qubits and the matrix of an operation that
    is neither a kept CZ nor a measurement; [decompose_once] is called on
    an operation that is not legal and has no matrix on two qubits. *)
Definition warranted (c : Call Qid Matrix) : Prop :=
  match c with
  | CallSynthesize q0 q1 mat partial =>
      partial = false /\
      exists op, is_kept_cz self op = false /\
                 is_measurement op = false /\
                 unitary op = Some mat /\
                 qubits op = [q0; q1]
  | CallDecomposeOnce op =>
      is_legal op = false /\ has_matrix_on 2 op = false
  end.

End Vocabulary.

(** ** A small world to run the converter in

    Line qubits numbered by [nat]; matrices named rather than written out. *)

Module Demo.

Inductive Matrix : Type :=
| PhasedX
| CZPow (t : Q)
| CCZ.

Definition Op : Type := Operation nat.

Definition x0 : Op := GateOperation 1 (OtherGate "PhasedXPowGate") [0].
Definition cz01 : Op := GateOperation 2 (CZPowGate (Num 1)) [0; 1].
Definition cz_half : Op := GateOperation 3 (CZPowGate (Num (1 # 2))) [0; 1].
Definition cz_sym : Op := GateOperation 4 (CZPowGate (Symbol "t")) [0; 1].
Definition measure : Op :=
  GateOperation 5 (OtherGate "MeasurementGate") [0; 1; 2].
Definition matrix_cz : Op :=
  GateOperation 6 (OtherGate "TwoQubitMatrixGate") [0; 1].
Definition ccz : Op := GateOperation 7 (OtherGate "CCZPowGate") [0; 1; 2].
Definition opaque : Op := OtherOperation 8 [0].
Definition nothing : Op := GateOperation 9 (OtherGate "Empty") [0].
Definition outer : Op := GateOperation 10 (OtherGate "Outer") [0; 1; 2].

Definition demo_is_measurement (op : Op) : bool :=
  match op with
  | GateOperation _ (OtherGate name) _ => String.eqb name "MeasurementGate"
  | _ => false
  end.

Definition demo_unitary (op : Op) : option Matrix :=
  match op with
  | GateOperation _ (CZPowGate (Num t)) _ => Some (CZPow t)
  | GateOperation _ (OtherGate name) _ =>
      if String.eqb name "PhasedXPowGate" then Some PhasedX
      else if String.eqb name "TwoQubitMatrixGate" then Some (CZPow 1)
      else if String.eqb name "CCZPowGate" then Some CCZ
      else None
  | _ => None
  end.

Definition demo_synthesis (q0 q1 : nat) (mat : Matrix) (partial : bool)
  : list (OP_TREE nat) :=
  [Leaf (GateOperation 100 (OtherGate "PhasedXPowGate") [q0]);
   Leaf (GateOperation 101 (CZPowGate (Num 1)) [q0; q1]);
   Leaf (GateOperation 102 (OtherGate "PhasedXPowGate") [q1])].

Definition demo_decompose_once (op : Op) : option (list (OP_TREE nat)) :=
  match op with
  | GateOperation _ (OtherGate name) _ =>
      if String.eqb name "CCZPowGate"
      then Some [Leaf x0; Node [Leaf cz_half; Leaf cz01]; Leaf measure]
      else if String.eqb name "Empty" then Some []
      else if String.eqb name "Outer" then Some [Leaf ccz; Leaf opaque]
      else None
  | _ => None
  end.

Definition demo_repr (op : Op) : string :=
  match op with
  | GateOperation _ (CZPowGate _) _ => "cirq.CZ**t"
  | GateOperation _ (OtherGate name) _ => name
  | OtherOperation _ _ => "<operation>"
  end.

#[export] Instance protocols : Protocols nat Matrix := {
  is_measurement := demo_is_measurement;
  unitary := demo_unitary;
  two_qubit_matrix_to_operations := demo_synthesis;
  decompose_once := demo_decompose_once;
  repr := demo_repr
}.

Definition strict : ConvertToCzAndSingleGates :=
  {| ignore_failures := false; allow_partial_czs := false |}.
Definition lenient : ConvertToCzAndSingleGates :=
  {| ignore_failures := true; allow_partial_czs := false |}.
Definition partial : ConvertToCzAndSingleGates :=
  {| ignore_failures := false; allow_partial_czs := true |}.

End Demo.

(** A world with a gate that decomposes into itself and a measurement. *)

Module Loop.

Definition again : Operation nat := GateOperation 1 (OtherGate "Again") [0].
Definition readout : Operation nat :=
  GateOperation 2 (OtherGate "MeasurementGate") [0].

Definition loop_decompose_once (op : Operation nat)
  : option (list (OP_TREE nat)) :=
  match op with
  | GateOperation _ (OtherGate name) _ =>
      if String.eqb name "Again"
      then Some [Leaf readout; Node [Leaf again]]
      else None
  | _ => None
  end.

Definition protocols : Protocols nat unit := {|
  is_measurement := Demo.demo_is_measurement;
  unitary := fun _ => None;
  two_qubit_matrix_to_operations := fun _ _ _ _ => [];
  decompose_once := loop_decompose_once;
  repr := Demo.demo_repr
|}.

End Loop.

Unset Implicit Arguments.

(** ** Runs *)

Section RunFacts.

Context {Qid Matrix : Type}.

Lemma bind_returns {A B : Type} (m : Run Qid Matrix A)
    (f : A -> Run Qid Matrix B) (b : B) :
  outcome (bind m f) = Returns b ->
  exists a, outcome m = Returns a /\ outcome (f a) = Returns b.
Proof.
  unfold bind. destruct (outcome m) as [a | e |] eqn:Hm; simpl; intros H.
  - exists a. split; [reflexivity | exact H].
  - discriminate H.
  - discriminate H.
Qed.

Lemma bind_raises {A B : Type} (m : Run Qid Matrix A)
    (f : A -> Run Qid Matrix B) (e : Exception) :
  outcome m = Raises e -> outcome (bind m f) = Raises e.
Proof. unfold bind. intros ->. reflexivity. Qed.

Lemma bind_ret {A B : Type} (a : A) (f : A -> Run Qid Matrix B) :
  bind (ret a) f = f a.
Proof. unfold bind. simpl. destruct (f a). reflexivity. Qed.

Lemma bind_outcome {A B : Type} (m : Run Qid Matrix A)
    (f : A -> Run Qid Matrix B) {a : A} :
  outcome m = Returns a ->
  bind m f = {| calls := calls m ++ calls (f a); outcome := outcome (f a) |}.
Proof. unfold bind. intros ->. reflexivity. Qed.

(** A comprehension that returns has run its body on every element. *)
Lemma comprehension_returns {A B : Type} (f : A -> Run Qid Matrix B)
    (l : list A)
    (ys : list B) :
  outcome (comprehension f l) = Returns ys ->
  Forall2 (fun x y => outcome (f x) = Returns y) l ys.
Proof.
  revert ys. induction l as [| x l IH]; simpl; intros ys H.
  - injection H as <-. constructor.
  - apply bind_returns in H. destruct H as [y [Hy H]].
    apply bind_returns in H. destruct H as [ys' [Hys H]].
    simpl in H. injection H as <-.
    constructor; [exact Hy | apply IH; exact Hys].
Qed.

(** A comprehension whose body returns its argument unchanged, with no
    call, is a plain [map]. *)
Lemma comprehension_pure {A B : Type} (f : A -> Run Qid Matrix B)
    (g : A -> B)
    (l : list A) :
  (forall x, In x l -> f x = ret (g x)) ->
  comprehension f l = ret (map g l).
Proof.
  induction l as [| x l IH]; simpl; intros H.
  - reflexivity.
  - rewrite (H x (or_introl eq_refl)), bind_ret.
    rewrite IH by (intros y Hy; apply H; right; exact Hy).
    rewrite bind_ret. reflexivity.
Qed.

(** The first element that raises ends the comprehension. *)
Lemma comprehension_raises {A B : Type} (f : A -> Run Qid Matrix B)
    (pre post : list A)
    (x : A) (e : Exception) :
  (forall y, In y pre -> exists b, outcome (f y) = Returns b) ->
  outcome (f x) = Raises e ->
  outcome (comprehension f (pre ++ x :: post)) = Raises e.
Proof.
  intros Hpre Hx. induction pre as [| y pre IH]; simpl.
  - apply bind_raises. exact Hx.
  - destruct (Hpre y (or_introl eq_refl)) as [b Hb].
    rewrite (bind_outcome _ _ Hb). simpl.
    apply bind_raises. apply IH.
    intros z Hz. apply Hpre. right. exact Hz.
Qed.

Lemma Forall_flat_map {A B C : Type} (R : A -> B -> Prop) (Q : C -> Prop)
    (g : B -> list C) (l : list A) (ys : list B) :
  Forall2 R l ys ->
  (forall x y, In x l -> R x y -> Forall Q (g y)) ->
  Forall Q (flat_map g ys).
Proof.
  induction 1 as [| x y l ys Hxy _ IH]; simpl; intros H.
  - constructor.
  - apply Forall_app. split.
    + apply (H x y); [left; reflexivity | exact Hxy].
    + apply IH. intros x' y' Hin. apply H. right. exact Hin.
Qed.

End RunFacts.

(** ** What [_convert_one] does, case by case *)

Section ConvertOne.

Context {Qid Matrix : Type} {P : Protocols Qid Matrix}.
Variable self : ConvertToCzAndSingleGates.

Lemma has_matrix_on_spec (n : nat) (op : Operation Qid) :
  has_matrix_on n op = true <->
  exists mat, unitary op = Some mat /\ List.length (qubits op) = n.
Proof.
  unfold has_matrix_on. destruct (unitary op) as [mat |]; split.
  - intros H. exists mat. split; [reflexivity | apply Nat.eqb_eq; exact H].
  - intros [_ [_ H]]. apply Nat.eqb_eq. exact H.
  - discriminate.
  - intros [mat [H _]]. discriminate H.
Qed.

(** A legal operation comes back as it is, and no collaborator is called. *)
Lemma _convert_one_legal (op : Operation Qid) :
  is_legal self op = true -> _convert_one self op = ret (Leaf op).
Proof.
  unfold is_legal, has_matrix_on, _convert_one.
  destruct (is_kept_cz self op); [reflexivity |].
  destruct (is_measurement op); [reflexivity |]. simpl.
  destruct (unitary op) as [mat |]; [| discriminate].
  destruct (qubits op) as [| q0 [| q1 qs]]; simpl;
    try discriminate; reflexivity.
Qed.

(** A known matrix on two qubits goes to the synthesis. *)
Lemma _convert_one_synthesis (op : Operation Qid) {mat : Matrix}
    {q0 q1 : Qid} :
  is_kept_cz self op = false ->
  is_measurement op = false ->
  unitary op = Some mat ->
  qubits op = [q0; q1] ->
  _convert_one self op =
    {| calls := [CallSynthesize q0 q1 mat false];
       outcome :=
         Returns (Node (two_qubit_matrix_to_operations q0 q1 mat false)) |}.
Proof.
  intros Hcz Hm Hu Hq. unfold _convert_one.
  rewrite Hcz, Hm, Hu, Hq. reflexivity.
Qed.

(** Everything else goes to the one-level decomposition and, when there is
    none, to the last test. *)
Lemma _convert_one_fallback (op : Operation Qid) :
  is_legal self op = false ->
  has_matrix_on 2 op = false ->
  _convert_one self op =
    {| calls := [CallDecomposeOnce op];
       outcome :=
         match decompose_once op with
         | Some subtrees => Returns (Node subtrees)
         | None =>
             if ignore_failures self then Returns (Leaf op)
             else Raises (unconvertible op)
         end |}.
Proof.
  unfold is_legal, has_matrix_on, _convert_one.
  destruct (is_kept_cz self op); [discriminate |].
  destruct (is_measurement op); [discriminate |]. simpl.
  assert (Hfall :
    (decomposed <- decompose op ;;
     match decomposed with
     | Some subtrees => ret (Node subtrees)
     | None =>
         if ignore_failures self then ret (Leaf op)
         else raise (unconvertible op)
     end) =
    {| calls := [CallDecomposeOnce op];
       outcome :=
         match decompose_once op with
         | Some subtrees => Returns (Node subtrees)
         | None =>
             if ignore_failures self then Returns (Leaf op)
             else Raises (unconvertible op)
         end |}).
  { unfold bind, decompose. simpl.
    destruct (decompose_once op); [reflexivity |].
    destruct (ignore_failures self); reflexivity. }
  destruct (unitary op) as [mat |]; [| intros _ _; exact Hfall].
  destruct (qubits op) as [| q0 [| q1 [| q2 qs]]]; simpl;
    try discriminate; intros _ _; exact Hfall.
Qed.

(** Whenever [_convert_one] hands back a bare operation, it is its own
    argument, and it is legal or let through. *)
Lemma _convert_one_leaf (op : Operation Qid) {o : Operation Qid} :
  outcome (_convert_one self op) = Returns (Leaf o) ->
  o = op /\ (is_legal self op = true \/ passed_through self op).
Proof.
  destruct (is_legal self op) eqn:Hlegal.
  - rewrite (_convert_one_legal _ Hlegal). simpl. intros H.
    injection H as <-. split; [reflexivity | left; reflexivity].
  - destruct (has_matrix_on 2 op) eqn:H2.
    + apply has_matrix_on_spec in H2. destruct H2 as [mat [Hu Hlen]].
      unfold is_legal in Hlegal.
      apply orb_false_iff in Hlegal. destruct Hlegal as [Hlegal _].
      apply orb_false_iff in Hlegal. destruct Hlegal as [Hcz Hm].
      destruct (qubits op) as [| q0 [| q1 [| q2 qs]]] eqn:Hq;
        try discriminate Hlen.
      rewrite (_convert_one_synthesis _ Hcz Hm Hu Hq). simpl. discriminate.
    + rewrite (_convert_one_fallback _ Hlegal H2). simpl.
      destruct (decompose_once op) eqn:Hd; [discriminate |].
      destruct (ignore_failures self) eqn:Hi; [| discriminate].
      intros H. injection H as <-. split; [reflexivity |].
      right. repeat split; assumption.
Qed.

End ConvertOne.

(** ** The calls a run makes *)

Section CallFacts.

Context {Qid Matrix : Type}.
Variable Q : Call Qid Matrix -> Prop.

Lemma calls_bind {A B : Type} (m : Run Qid Matrix A)
    (f : A -> Run Qid Matrix B) :
  Forall Q (calls m) ->
  (forall a, outcome m = Returns a -> Forall Q (calls (f a))) ->
  Forall Q (calls (bind m f)).
Proof.
  intros Hm Hf. unfold bind.
  destruct (outcome m) as [a | e |] eqn:Ho; simpl; try exact Hm.
  apply Forall_app. split; [exact Hm | apply Hf; reflexivity].
Qed.

Lemma calls_comprehension {A B : Type} (f : A -> Run Qid Matrix B)
    (l : list A) :
  (forall x, In x l -> Forall Q (calls (f x))) ->
  Forall Q (calls (comprehension f l)).
Proof.
  induction l as [| x l IH]; simpl; intros H.
  - constructor.
  - apply calls_bind; [apply H; left; reflexivity |].
    intros y _. apply calls_bind.
    + apply IH. intros z Hz. apply H. right. exact Hz.
    + intros ys _. constructor.
Qed.

End CallFacts.

(** ** The recursion of [convert] *)

Section Convert.

Context {Qid Matrix : Type} {P : Protocols Qid Matrix}.
Variable self : ConvertToCzAndSingleGates.

Lemma convert_S (fuel : nat) (op : Operation Qid) :
  convert self (S fuel) op =
    (converted <- _convert_one self op ;;
     if is_ converted op then ret converted
     else
       results <- comprehension (convert self fuel)
                    (flatten_op_tree converted) ;;
       ret (Node results)).
Proof. reflexivity. Qed.

(** When [_convert_one] hands the operation back, [convert] stops there:
    the identity test fires and nothing is converted again. *)
Lemma convert_unchanged (fuel : nat) {op : Operation Qid} :
  outcome (_convert_one self op) = Returns (Leaf op) ->
  convert self (S fuel) op = _convert_one self op.
Proof.
  intros H. cbn [convert]. unfold bind. rewrite H.
  unfold is_. rewrite Nat.eqb_refl. simpl. rewrite app_nil_r.
  destruct (_convert_one self op) as [cs o]. simpl in H. rewrite H.
  reflexivity.
Qed.

Lemma convert_raises (fuel : nat) (op : Operation Qid) (e : Exception) :
  outcome (_convert_one self op) = Raises e ->
  outcome (convert self (S fuel) op) = Raises e.
Proof. intros H. cbn [convert]. apply bind_raises. exact H. Qed.

(** When [_convert_one] hands back a sequence, [convert] converts its
    operations one after the other and returns the list of the results. *)
Lemma convert_sequence (fuel : nat) (op : Operation Qid)
    {subtrees : list (OP_TREE Qid)} :
  outcome (_convert_one self op) = Returns (Node subtrees) ->
  outcome (convert self (S fuel) op) =
    match outcome (comprehension (convert self fuel)
                     (flat_map flatten_op_tree subtrees)) with
    | Returns results => Returns (Node results)
    | Raises e => Raises e
    | OutOfFuel => OutOfFuel
    end.
Proof.
  intros H. cbn [convert]. rewrite (bind_outcome _ _ H). simpl.
  unfold bind.
  destruct (outcome (comprehension (convert self fuel)
                       (flat_map flatten_op_tree subtrees)));
    reflexivity.
Qed.

(** What [convert] returns is the operation itself or a list. *)
Lemma convert_returns_shape (fuel : nat) (op : Operation Qid)
    {t : OP_TREE Qid} :
  outcome (convert self fuel op) = Returns t ->
  (t = Leaf op /\ outcome (_convert_one self op) = Returns (Leaf op)) \/
  (exists results, t = Node results).
Proof.
  destruct fuel as [| fuel]; [discriminate |].
  cbn [convert]. intros H.
  apply bind_returns in H. destruct H as [c [Hc Hk]].
  destruct (is_ c op) eqn:Hi.
  - simpl in Hk. injection Hk as <-.
    destruct c as [o | ts]; [| discriminate Hi].
    destruct (_convert_one_leaf _ _ Hc) as [-> _].
    left. split; [reflexivity | exact Hc].
  - apply bind_returns in Hk. destruct Hk as [rs [_ Hk]].
    simpl in Hk. injection Hk as <-. right. exists rs. reflexivity.
Qed.

(** The operations of a returned tree are those [_convert_one] hands
    back: legal, or let through. *)
Lemma convert_leaves (fuel : nat) (op : Operation Qid) {t : OP_TREE Qid} :
  outcome (convert self fuel op) = Returns t ->
  Forall (fun leaf => is_legal self leaf = true \/ passed_through self leaf)
    (flatten_op_tree t).
Proof.
  revert op t. induction fuel as [| fuel IH]; intros op t H.
  - discriminate H.
  - rewrite convert_S in H.
    apply bind_returns in H. destruct H as [c [Hc Hk]].
    destruct (is_ c op) eqn:Hi.
    + simpl in Hk. injection Hk as <-.
      destruct c as [o | ts]; [| discriminate Hi].
      destruct (_convert_one_leaf self _ Hc) as [-> Hkept].
      simpl. constructor; [exact Hkept | constructor].
    + apply bind_returns in Hk. destruct Hk as [rs [Hrs Hk]].
      simpl in Hk. injection Hk as <-. simpl.
      apply comprehension_returns in Hrs.
      eapply Forall_flat_map; [exact Hrs |].
      intros x y _ Hxy. exact (IH x y Hxy).
Qed.

(** X2.  A failure below aborts the whole conversion: when the sequence
    [_convert_one] hands back holds an operation whose conversion raises,
    after operations that convert, [convert] raises the same exception
    and returns nothing of what was converted before. *)
Lemma convert_propagates_failure (fuel : nat) (op x : Operation Qid)
    (subtrees : list (OP_TREE Qid)) (pre post : list (Operation Qid))
    (e : Exception) :
  outcome (_convert_one self op) = Returns (Node subtrees) ->
  flat_map flatten_op_tree subtrees = pre ++ x :: post ->
  (forall y, In y pre -> exists t, outcome (convert self fuel y) = Returns t) ->
  outcome (convert self fuel x) = Raises e ->
  outcome (convert self (S fuel) op) = Raises e.
Proof.
  intros Hone Hflat Hpre Hx.
  rewrite (convert_sequence fuel op Hone), Hflat.
  rewrite (comprehension_raises _ pre post x e Hpre Hx). reflexivity.
Qed.

(** More fuel does not change a run that ended. *)
Lemma comprehension_more_fuel {A B : Type} (f g : A -> Run Qid Matrix B)
    {l : list A} :
  (forall x, outcome (f x) <> OutOfFuel -> g x = f x) ->
  outcome (comprehension f l) <> OutOfFuel ->
  comprehension g l = comprehension f l.
Proof.
  intros Hfg. induction l as [| x l IH]; simpl; intros H.
  - reflexivity.
  - assert (Hx : outcome (f x) <> OutOfFuel).
    { intros E. apply H. unfold bind. rewrite E. reflexivity. }
    rewrite (Hfg x Hx).
    destruct (outcome (f x)) as [y | e |] eqn:Hy.
    + rewrite !(bind_outcome _ _ Hy). rewrite (bind_outcome _ _ Hy) in H.
      simpl in H.
      assert (Hl : outcome (comprehension f l) <> OutOfFuel).
      { intros E. apply H. unfold bind. rewrite E. reflexivity. }
      rewrite (IH Hl). reflexivity.
    + unfold bind. rewrite Hy. reflexivity.
    + contradiction Hx. reflexivity.
Qed.

Lemma convert_more_fuel (fuel : nat) (op : Operation Qid) :
  outcome (convert self fuel op) <> OutOfFuel ->
  convert self (S fuel) op = convert self fuel op.
Proof.
  revert op. induction fuel as [| fuel IH]; intros op H.
  - contradiction H. reflexivity.
  - rewrite (convert_S (S fuel) op). rewrite (convert_S fuel op) in H |- *.
    destruct (outcome (_convert_one self op)) as [c | e |] eqn:Hc.
    + rewrite !(bind_outcome _ _ Hc). rewrite (bind_outcome _ _ Hc) in H.
      cbn [outcome calls] in H |- *. destruct (is_ c op); [reflexivity |].
      rewrite (comprehension_more_fuel (convert self fuel)
                 (convert self (S fuel))); [reflexivity | exact IH |].
      intros E. apply H. unfold bind. rewrite E. reflexivity.
    + unfold bind. rewrite Hc. reflexivity.
    + unfold bind. rewrite Hc. reflexivity.
Qed.

(** Enough fuel gives the result: once a depth suffices, every larger one
    gives the same run. *)
Lemma convert_fuel_monotone (fuel extra : nat) (op : Operation Qid) :
  outcome (convert self fuel op) <> OutOfFuel ->
  convert self (extra + fuel) op = convert self fuel op.
Proof.
  intros H. induction extra as [| extra IH]; [reflexivity |].
  cbn [Nat.add]. rewrite convert_more_fuel; rewrite IH; [reflexivity | exact H].
Qed.

(** No run of [_convert_one] asks the synthesis for partial CZs. *)
Lemma _convert_one_calls (op : Operation Qid) :
  Forall (fun c => is_partial_synthesis c = false)
    (calls (_convert_one self op)).
Proof.
  unfold _convert_one.
  destruct (is_kept_cz self op); [constructor |].
  destruct (is_measurement op); [constructor |].
  assert (Hfall : Forall (fun c => is_partial_synthesis c = false)
    (calls (decomposed <- decompose op ;;
            match decomposed with
            | Some subtrees => ret (Node subtrees)
            | None =>
                if ignore_failures self then ret (Leaf op)
                else raise (unconvertible op)
            end))).
  { apply calls_bind; [repeat constructor |].
    intros [ts |] _; [constructor |].
    destruct (ignore_failures self); constructor. }
  destruct (unitary op) as [mat |]; [| exact Hfall].
  destruct (qubits op) as [| q0 [| q1 [| q2 qs]]]; try exact Hfall.
  - constructor.
  - repeat constructor.
Qed.

Lemma convert_calls (fuel : nat) (op : Operation Qid) :
  Forall (fun c => is_partial_synthesis c = false)
    (calls (convert self fuel op)).
Proof.
  revert op. induction fuel as [| fuel IH]; intros op; cbn [convert].
  - constructor.
  - apply calls_bind; [apply _convert_one_calls |].
    intros c _. destruct (is_ c op); [constructor |].
    apply calls_bind.
    + apply calls_comprehension. intros x _. apply IH.
    + intros rs _. constructor.
Qed.

End Convert.

(** ** The properties of the converter *)

Section Properties.

Context {Qid Matrix : Type} {P : Protocols Qid Matrix}.

(** C1.  Whenever [convert] returns, every operation of the returned tree
    is legal by one of the tests of [_convert_one] (a kept CZ, a
    measurement, a one qubit operation with a known matrix), or it was let
    through because [ignore_failures] is set; nothing else appears.  The
    operations the two qubit synthesis produces are converted again like
    any other, so they fall under the same two cases. *)
Theorem convert_leaves_legal_or_passed_through
    (self : ConvertToCzAndSingleGates) (fuel : nat) (op : Operation Qid)
    (t : OP_TREE Qid) :
  outcome (convert self fuel op) = Returns t ->
  Forall (fun leaf => is_legal self leaf = true \/ passed_through self leaf)
    (flatten_op_tree t).
Proof. apply convert_leaves. Qed.

(** C2.  An operation that is not legal, has no matrix or has one on a
    number of qubits other than 1 and 2, and has no decomposition: without
    [ignore_failures], [convert] raises the [TypeError] whose message
    carries the [repr] of the operation, and returns nothing; with
    [ignore_failures], it returns the operation itself. *)
Theorem convert_unconvertible
    (self : ConvertToCzAndSingleGates) (fuel : nat) (op : Operation Qid) :
  is_kept_cz self op = false ->
  is_measurement op = false ->
  unitary op = None \/
    (List.length (qubits op) <> 1 /\ List.length (qubits op) <> 2) ->
  decompose_once op = None ->
  (ignore_failures self = false ->
   outcome (convert self (S fuel) op) =
     Raises (TypeError
       ("Don't know how to work with " ++ repr op ++ ". "
        ++ "It isn't composite or an operation with a "
        ++ "known unitary effect on 1 or 2 qubits."))) /\
  (ignore_failures self = true ->
   outcome (convert self (S fuel) op) = Returns (Leaf op)).
Proof.
  intros Hcz Hm Hmat Hd.
  assert (H1 : has_matrix_on 1 op = false /\ has_matrix_on 2 op = false).
  { unfold has_matrix_on. destruct Hmat as [-> | [Hn1 Hn2]].
    - split; reflexivity.
    - destruct (unitary op); [| split; reflexivity].
      split; apply Nat.eqb_neq; assumption. }
  destruct H1 as [H1 H2].
  assert (Hlegal : is_legal self op = false).
  { unfold is_legal. rewrite Hcz, Hm, H1. reflexivity. }
  pose proof (_convert_one_fallback self op Hlegal H2) as Hone.
  rewrite Hd in Hone. split; intros Hi; rewrite Hi in Hone.
  - apply convert_raises. rewrite Hone. reflexivity.
  - rewrite convert_unchanged; rewrite Hone; reflexivity.
Qed.

(** C3.  An operation on exactly two qubits with a known matrix that is
    not legal: [_convert_one] calls the synthesis with the two qubits in
    their order, the matrix and [allow_partial_czs=False], whatever the
    configuration; and no run of [convert] ever calls it otherwise. *)
Theorem synthesis_called_without_partial_czs
    (self : ConvertToCzAndSingleGates) (op : Operation Qid) (mat : Matrix)
    (q0 q1 : Qid) :
  is_legal self op = false ->
  unitary op = Some mat ->
  qubits op = [q0; q1] ->
  _convert_one self op =
    {| calls := [CallSynthesize q0 q1 mat false];
       outcome :=
         Returns (Node (two_qubit_matrix_to_operations q0 q1 mat false)) |}
  /\ (forall fuel, exists rest,
        calls (convert self (S fuel) op) =
          CallSynthesize q0 q1 mat false :: rest)
  /\ (forall fuel o,
        Forall (fun c => is_partial_synthesis c = false)
          (calls (convert self fuel o))).
Proof.
  intros Hlegal Hu Hq. unfold is_legal in Hlegal.
  apply orb_false_iff in Hlegal. destruct Hlegal as [Hlegal _].
  apply orb_false_iff in Hlegal. destruct Hlegal as [Hcz Hm].
  pose proof (_convert_one_synthesis self op Hcz Hm Hu Hq) as Hone.
  split; [exact Hone | split].
  - intros fuel. rewrite convert_S.
    assert (Ho : outcome (_convert_one self op) =
                 Returns
                   (Node (two_qubit_matrix_to_operations q0 q1 mat false)))
      by (rewrite Hone; reflexivity).
    rewrite (bind_outcome _ _ Ho). rewrite Hone. simpl.
    eexists. reflexivity.
  - intros fuel o. apply convert_calls.
Qed.

(** C5.  A [CZPowGate] operation with exponent 1 is returned as it is, for
    both values of [allow_partial_czs] (and of [ignore_failures]). *)
Theorem convert_cz_unchanged
    (self : ConvertToCzAndSingleGates) (fuel : nat) (i : nat)
    (exponent : Exponent) (qs : list Qid) :
  exponent_is_one exponent = true ->
  convert self (S fuel) (GateOperation i (CZPowGate exponent) qs) =
    ret (Leaf (GateOperation i (CZPowGate exponent) qs)).
Proof.
  intros He.
  assert (Hone : _convert_one self (GateOperation i (CZPowGate exponent) qs) =
                 ret (Leaf (GateOperation i (CZPowGate exponent) qs))).
  { apply _convert_one_legal. unfold is_legal, is_kept_cz.
    rewrite He, orb_true_r. reflexivity. }
  rewrite convert_unchanged; rewrite Hone; reflexivity.
Qed.

(** C8.  An operation on exactly one qubit with a known matrix is returned
    as it is: [_convert_one] hands back the same object, the identity test
    of [convert] fires, and depth 1 is enough, nothing is converted
    again. *)
Theorem convert_single_qubit_unchanged
    (self : ConvertToCzAndSingleGates) (op : Operation Qid) (mat : Matrix)
    (q : Qid) :
  unitary op = Some mat ->
  qubits op = [q] ->
  _convert_one self op = ret (Leaf op) /\
  is_ (Leaf op) op = true /\
  convert self 1 op = ret (Leaf op) /\
  forall fuel, convert self (S fuel) op = ret (Leaf op).
Proof.
  intros Hu Hq.
  assert (Hone : _convert_one self op = ret (Leaf op)).
  { apply _convert_one_legal. unfold is_legal, has_matrix_on.
    rewrite Hu, Hq. simpl. apply orb_true_r. }
  assert (Hall : forall fuel, convert self (S fuel) op = ret (Leaf op)).
  { intros fuel. rewrite convert_unchanged; rewrite Hone; reflexivity. }
  repeat split.
  - exact Hone.
  - unfold is_. apply Nat.eqb_refl.
  - apply Hall.
  - exact Hall.
Qed.

(** An operation of a returned tree is one [_convert_one] hands back. *)
Lemma _convert_one_fixes (self : ConvertToCzAndSingleGates)
    (op : Operation Qid) :
  is_legal self op = true \/ passed_through self op ->
  outcome (_convert_one self op) = Returns (Leaf op).
Proof.
  intros [Hlegal | [Hi [Hlegal [H2 Hd]]]].
  - rewrite (_convert_one_legal self op Hlegal). reflexivity.
  - rewrite (_convert_one_fallback self op Hlegal H2), Hd, Hi. reflexivity.
Qed.

(** C4.  Whatever the circuit and the index: when [convert] returned,
    [optimization_at] returns [None] exactly when the result is the
    operation object itself (then nothing was rewritten); otherwise it
    returns the summary with [clear_span = 1], the result of [convert] as
    the new operations, so that the operations it puts into the circuit
    are the flattened sequence [convert] produced, and the qubits of the
    operation as the qubits to clear. *)
Theorem optimization_at_summary
    (self : ConvertToCzAndSingleGates) (fuel : nat) (circuit : Circuit Qid)
    (index : Z) (op : Operation Qid) (t : OP_TREE Qid) :
  outcome (convert self fuel op) = Returns t ->
  (outcome (optimization_at self fuel circuit index op) = Returns None <->
   is_ t op = true) /\
  (is_ t op = true -> t = Leaf op) /\
  (is_ t op = false ->
   exists summary,
     outcome (optimization_at self fuel circuit index op) =
       Returns (Some summary) /\
     clear_span summary = 1%Z /\
     new_operations summary = t /\
     replacement summary = flatten_op_tree t /\
     clear_qubits summary = qubits op).
Proof.
  intros H. unfold optimization_at. rewrite (bind_outcome _ _ H).
  cbn [outcome]. split; [| split].
  - destruct (is_ t op); simpl; split; intros E;
      try reflexivity; discriminate E.
  - intros Hi.
    destruct (convert_returns_shape self fuel op H) as [[-> _] | [rs ->]];
      [reflexivity | discriminate Hi].
  - intros Hi. rewrite Hi. simpl. eexists. split; [reflexivity |].
    simpl. repeat split.
Qed.

(** C6 (amended).  A [CZPowGate] operation with an exponent other than
    1: with [allow_partial_czs], [convert] returns it as it is; without,
    the CZ test does not keep it and the later tests decide: when it is
    not a measurement and has a known matrix on its two qubits the two
    qubit synthesis is called, and when it has no known matrix it goes to
    [decompose_once] and the last test. *)
Theorem convert_partial_cz
    (self : ConvertToCzAndSingleGates) (i : nat) (exponent : Exponent)
    (qs : list Qid) :
  exponent_is_one exponent = false ->
  (allow_partial_czs self = true ->
   forall fuel,
     convert self (S fuel) (GateOperation i (CZPowGate exponent) qs) =
       ret (Leaf (GateOperation i (CZPowGate exponent) qs))) /\
  (allow_partial_czs self = false ->
   is_kept_cz self (GateOperation i (CZPowGate exponent) qs) = false /\
   (is_measurement (GateOperation i (CZPowGate exponent) qs) = false ->
    forall mat q0 q1,
      unitary (GateOperation i (CZPowGate exponent) qs) = Some mat ->
      qs = [q0; q1] ->
      _convert_one self (GateOperation i (CZPowGate exponent) qs) =
        {| calls := [CallSynthesize q0 q1 mat false];
           outcome :=
             Returns
               (Node (two_qubit_matrix_to_operations q0 q1 mat false)) |}) /\
   (is_measurement (GateOperation i (CZPowGate exponent) qs) = false ->
    unitary (GateOperation i (CZPowGate exponent) qs) = None ->
    _convert_one self (GateOperation i (CZPowGate exponent) qs) =
      {| calls := [CallDecomposeOnce (GateOperation i (CZPowGate exponent) qs)];
         outcome :=
           match decompose_once (GateOperation i (CZPowGate exponent) qs) with
           | Some subtrees => Returns (Node subtrees)
           | None =>
               if ignore_failures self
               then Returns (Leaf (GateOperation i (CZPowGate exponent) qs))
               else Raises
                      (unconvertible
                         (GateOperation i (CZPowGate exponent) qs))
           end |})).
Proof.
  intros He. set (op := GateOperation i (CZPowGate exponent) qs).
  split.
  - intros Hp fuel.
    assert (Hone : _convert_one self op = ret (Leaf op)).
    { apply _convert_one_legal. unfold is_legal, op, is_kept_cz.
      rewrite Hp. reflexivity. }
    rewrite convert_unchanged; rewrite Hone; reflexivity.
  - intros Hp.
    assert (Hcz : is_kept_cz self op = false).
    { unfold op, is_kept_cz. rewrite Hp, He. reflexivity. }
    split; [exact Hcz | split].
    + intros Hm mat q0 q1 Hu Hq.
      apply _convert_one_synthesis; assumption.
    + intros Hm Hu. apply _convert_one_fallback.
      * unfold is_legal, has_matrix_on. rewrite Hcz, Hm, Hu. reflexivity.
      * unfold has_matrix_on. rewrite Hu. reflexivity.
Qed.

(** C7.  Idempotence.  Every operation of a tree [convert] returned is
    returned as it is when converted again; when the operations of the
    tree are all legal, converting them again one after the other gives
    them back in order, with no collaborator called. *)
Theorem convert_idempotent
    (self : ConvertToCzAndSingleGates) (fuel : nat) (op : Operation Qid)
    (t : OP_TREE Qid) :
  outcome (convert self fuel op) = Returns t ->
  (forall leaf n,
     In leaf (flatten_op_tree t) ->
     outcome (convert self (S n) leaf) = Returns (Leaf leaf)) /\
  (Forall (fun leaf => is_legal self leaf = true) (flatten_op_tree t) ->
   (forall leaf n,
      In leaf (flatten_op_tree t) ->
      convert self (S n) leaf = ret (Leaf leaf)) /\
   (forall n,
      comprehension (convert self (S n)) (flatten_op_tree t) =
        ret (map Leaf (flatten_op_tree t)))).
Proof.
  intros H. split.
  - intros leaf n Hin.
    pose proof (convert_leaves self fuel op H) as Hall.
    rewrite Forall_forall in Hall.
    pose proof (_convert_one_fixes self leaf (Hall leaf Hin)) as Hone.
    rewrite (convert_unchanged self n Hone). exact Hone.
  - intros Hlegal. rewrite Forall_forall in Hlegal.
    assert (Hleaf : forall leaf n, In leaf (flatten_op_tree t) ->
                    convert self (S n) leaf = ret (Leaf leaf)).
    { intros leaf n Hin.
      pose proof (_convert_one_legal self leaf (Hlegal leaf Hin)) as Hone.
      rewrite convert_unchanged; rewrite Hone; reflexivity. }
    split; [exact Hleaf |].
    intros n. apply comprehension_pure. intros leaf Hin. apply Hleaf.
    exact Hin.
Qed.

(** C9.  The CZ test looks at the classes, not at the matrix: it keeps
    only a [GateOperation] with a [CZPowGate]; an operation of another
    class is never kept by it, whatever its matrix and whatever
    [allow_partial_czs]; when it is not a measurement and has a known
    matrix on two qubits, it goes to the synthesis, and what [convert]
    returns for it is never the operation itself. *)
Theorem cz_test_is_structural
    (self : ConvertToCzAndSingleGates) (op : Operation Qid) (mat : Matrix)
    (q0 q1 : Qid) :
  is_cz_pow_operation op = false ->
  is_measurement op = false ->
  unitary op = Some mat ->
  qubits op = [q0; q1] ->
  (forall o : Operation Qid,
     is_kept_cz self o = true -> is_cz_pow_operation o = true) /\
  is_kept_cz self op = false /\
  _convert_one self op =
    {| calls := [CallSynthesize q0 q1 mat false];
       outcome :=
         Returns (Node (two_qubit_matrix_to_operations q0 q1 mat false)) |} /\
  (forall fuel t,
     outcome (convert self fuel op) = Returns t ->
     is_ t op = false /\ exists results, t = Node results).
Proof.
  intros Hclass Hm Hu Hq.
  split.
  { intros [i [e | name] qs | i qs]; simpl; intros H;
      try reflexivity; discriminate H. }
  assert (Hcz : is_kept_cz self op = false).
  { unfold is_kept_cz. destruct op as [i [e | name] qs | i qs];
      try reflexivity. discriminate Hclass. }
  pose proof (_convert_one_synthesis self op Hcz Hm Hu Hq) as Hone.
  split; [exact Hcz | split; [exact Hone |]].
  intros fuel t H.
  destruct (convert_returns_shape self fuel op H) as [[_ Hleaf] | [rs ->]].
  - rewrite Hone in Hleaf. discriminate Hleaf.
  - split; [reflexivity | exists rs; reflexivity].
Qed.

(** C10.  When [decompose_once] gives an empty sequence for an operation
    that reaches it, [convert] returns the empty list, the operation is
    gone from the output, and [optimization_at] returns a summary with no
    new operation, not [None]. *)
Theorem convert_empty_decomposition
    (self : ConvertToCzAndSingleGates) (fuel : nat) (circuit : Circuit Qid)
    (index : Z) (op : Operation Qid) :
  is_legal self op = false ->
  has_matrix_on 2 op = false ->
  decompose_once op = Some [] ->
  outcome (convert self (S fuel) op) = Returns (Node []) /\
  is_ (Node []) op = false /\
  outcome (optimization_at self (S fuel) circuit index op) =
    Returns (Some {| clear_span := 1;
                     new_operations := Node [];
                     clear_qubits := qubits op |}) /\
  replacement {| clear_span := 1;
                 new_operations := Node [];
                 clear_qubits := qubits op |} = [].
Proof.
  intros Hlegal H2 Hd.
  pose proof (_convert_one_fallback self op Hlegal H2) as Hone.
  rewrite Hd in Hone.
  assert (Hc : outcome (convert self (S fuel) op) = Returns (Node [])).
  { rewrite (convert_sequence self fuel op (subtrees := []));
      [reflexivity | rewrite Hone; reflexivity]. }
  split; [exact Hc | split; [reflexivity | split; [| reflexivity]]].
  unfold optimization_at. rewrite (bind_outcome _ _ Hc). reflexivity.
Qed.

End Properties.

(** ** Further properties of the converter *)

Section RunInversion.

Context {Qid Matrix : Type}.

Lemma bind_raises_inv {A B : Type} (m : Run Qid Matrix A)
    (f : A -> Run Qid Matrix B) (e : Exception) :
  outcome (bind m f) = Raises e ->
  outcome m = Raises e \/
  exists a, outcome m = Returns a /\ outcome (f a) = Raises e.
Proof.
  unfold bind. destruct (outcome m) as [a | e' |]; simpl; intros H.
  - right. exists a. split; [reflexivity | exact H].
  - left. injection H as ->. reflexivity.
  - discriminate H.
Qed.

Lemma comprehension_raises_inv {A B : Type} (f : A -> Run Qid Matrix B)
    (l : list A) (e : Exception) :
  outcome (comprehension f l) = Raises e ->
  exists x, In x l /\ outcome (f x) = Raises e.
Proof.
  induction l as [| x l IH]; simpl; intros H.
  - discriminate H.
  - apply bind_raises_inv in H. destruct H as [H | [y [_ H]]].
    + exists x. split; [left; reflexivity | exact H].
    + apply bind_raises_inv in H. destruct H as [H | [ys [_ H]]].
      * destruct (IH H) as [z [Hz Hr]]. exists z.
        split; [right; exact Hz | exact Hr].
      * discriminate H.
Qed.

Lemma Forall2_in_left {A B : Type} (R : A -> B -> Prop) (l : list A)
    (ys : list B) (x : A) :
  Forall2 R l ys -> In x l -> exists y, In y ys /\ R x y.
Proof.
  induction 1 as [| x' y l ys Hxy _ IH]; simpl; intros Hin.
  - contradiction.
  - destruct Hin as [-> | Hin].
    + exists y. split; [left; reflexivity | exact Hxy].
    + destruct (IH Hin) as [y' [Hy' Hr]]. exists y'.
      split; [right; exact Hy' | exact Hr].
Qed.

End RunInversion.

Section Further.

Context {Qid Matrix : Type} {P : Protocols Qid Matrix}.

(** [_convert_one] raises only at its last line. *)
Lemma _convert_one_raises_inv (self : ConvertToCzAndSingleGates)
    (op : Operation Qid) (e : Exception) :
  outcome (_convert_one self op) = Raises e ->
  ignore_failures self = false /\
  e = unconvertible op /\
  is_legal self op = false /\
  has_matrix_on 2 op = false /\
  decompose_once op = None.
Proof.
  destruct (is_legal self op) eqn:Hlegal.
  - rewrite (_convert_one_legal self op Hlegal). discriminate.
  - destruct (has_matrix_on 2 op) eqn:H2.
    + apply has_matrix_on_spec in H2. destruct H2 as [mat [Hu Hlen]].
      unfold is_legal in Hlegal.
      apply orb_false_iff in Hlegal. destruct Hlegal as [Hlegal _].
      apply orb_false_iff in Hlegal. destruct Hlegal as [Hcz Hm].
      destruct (qubits op) as [| q0 [| q1 [| q2 qs]]] eqn:Hq;
        try discriminate Hlen.
      rewrite (_convert_one_synthesis self op Hcz Hm Hu Hq). discriminate.
    + rewrite (_convert_one_fallback self op Hlegal H2). simpl.
      destruct (decompose_once op); [discriminate |].
      destruct (ignore_failures self); [discriminate |].
      intros H. injection H as <-. repeat split.
Qed.

Lemma _convert_one_warranted (self : ConvertToCzAndSingleGates)
    (op : Operation Qid) :
  Forall (warranted self) (calls (_convert_one self op)).
Proof.
  destruct (is_legal self op) eqn:Hlegal.
  - rewrite (_convert_one_legal self op Hlegal). constructor.
  - destruct (has_matrix_on 2 op) eqn:H2.
    + apply has_matrix_on_spec in H2. destruct H2 as [mat [Hu Hlen]].
      unfold is_legal in Hlegal.
      apply orb_false_iff in Hlegal. destruct Hlegal as [Hlegal _].
      apply orb_false_iff in Hlegal. destruct Hlegal as [Hcz Hm].
      destruct (qubits op) as [| q0 [| q1 [| q2 qs]]] eqn:Hq;
        try discriminate Hlen.
      rewrite (_convert_one_synthesis self op Hcz Hm Hu Hq). simpl.
      constructor; [| constructor].
      split; [reflexivity |]. exists op. repeat split; assumption.
    + rewrite (_convert_one_fallback self op Hlegal H2). simpl.
      constructor; [| constructor]. split; assumption.
Qed.

(** X1.  A measurement is returned as it is, on any number of qubits and
    for every configuration, no collaborator is called, and
    [optimization_at] reports no change. *)
Theorem convert_measurement_unchanged
    (self : ConvertToCzAndSingleGates) (fuel : nat) (circuit : Circuit Qid)
    (index : Z) (op : Operation Qid) :
  is_measurement op = true ->
  convert self (S fuel) op = ret (Leaf op) /\
  optimization_at self (S fuel) circuit index op = ret None.
Proof.
  intros Hm.
  assert (Hone : _convert_one self op = ret (Leaf op)).
  { apply _convert_one_legal. unfold is_legal.
    rewrite Hm, orb_true_r. reflexivity. }
  assert (Hc : convert self (S fuel) op = ret (Leaf op)).
  { rewrite convert_unchanged; rewrite Hone; reflexivity. }
  split; [exact Hc |].
  unfold optimization_at. rewrite Hc, bind_ret.
  unfold is_. rewrite Nat.eqb_refl. reflexivity.
Qed.

(** What [convert] raises was raised by [_convert_one] somewhere below. *)
Lemma convert_raises_inv
    (self : ConvertToCzAndSingleGates) (fuel : nat) (op : Operation Qid)
    (e : Exception) :
  outcome (convert self fuel op) = Raises e ->
  ignore_failures self = false /\
  exists culprit,
    e = unconvertible culprit /\
    is_legal self culprit = false /\
    has_matrix_on 2 culprit = false /\
    decompose_once culprit = None.
Proof.
  revert op. induction fuel as [| fuel IH]; intros op H.
  - discriminate H.
  - rewrite convert_S in H. apply bind_raises_inv in H.
    destruct H as [H | [c [_ H]]].
    + apply _convert_one_raises_inv in H.
      destruct H as [Hi [-> H]]. split; [exact Hi |].
      exists op. split; [reflexivity | exact H].
    + destruct (is_ c op); [discriminate H |].
      apply bind_raises_inv in H. destruct H as [H | [rs [_ H]]].
      * apply comprehension_raises_inv in H.
        destruct H as [x [_ H]]. exact (IH x H).
      * discriminate H.
Qed.


(** X4.  Without [ignore_failures], as [__init__] sets it when the
    argument is not given, every operation of a tree [convert] returns is
    legal: a kept CZ, a measurement or a one qubit operation with a known
    matrix. *)
Theorem convert_strict_output_legal
    (ignore allow : option bool) (fuel : nat) (op : Operation Qid)
    (t : OP_TREE Qid) :
  ignore <> Some true ->
  outcome (convert (__init__ ignore allow) fuel op) = Returns t ->
  Forall (fun leaf => is_legal (__init__ ignore allow) leaf = true)
    (flatten_op_tree t).
Proof.
  intros Hi H.
  pose proof (convert_leaves (__init__ ignore allow) fuel op H) as Hall.
  apply Forall_impl with (2 := Hall).
  intros leaf [Hlegal | [Hpass _]]; [exact Hlegal |].
  simpl in Hpass. destruct ignore as [[|] |]; try discriminate Hpass.
  contradiction Hi. reflexivity.
Qed.

(** X5.  With neither flag set, no partial CZ is left in the output: a
    [CZPowGate] operation of a returned tree that is not a measurement and
    not a one qubit operation with a known matrix has exponent 1. *)
Theorem convert_strict_output_cz
    (ignore allow : option bool) (fuel : nat) (op : Operation Qid)
    (t : OP_TREE Qid) (i : nat) (exponent : Exponent) (qs : list Qid) :
  ignore <> Some true ->
  allow <> Some true ->
  outcome (convert (__init__ ignore allow) fuel op) = Returns t ->
  In (GateOperation i (CZPowGate exponent) qs) (flatten_op_tree t) ->
  is_measurement (GateOperation i (CZPowGate exponent) qs) = false ->
  has_matrix_on 1 (GateOperation i (CZPowGate exponent) qs) = false ->
  exponent_is_one exponent = true.
Proof.
  intros Hi Ha H Hin Hm H1.
  pose proof (convert_leaves (__init__ ignore allow) fuel op H) as Hall.
  rewrite Forall_forall in Hall.
  destruct (Hall _ Hin) as [Hlegal | [Hpass _]].
  - unfold is_legal in Hlegal. rewrite Hm, H1, !orb_false_r in Hlegal.
    simpl in Hlegal. destruct allow as [[|] |]; simpl in Hlegal;
      try exact Hlegal.
    contradiction Ha. reflexivity.
  - simpl in Hpass. destruct ignore as [[|] |]; try discriminate Hpass.
    contradiction Hi. reflexivity.
Qed.

(** X6.  When the sequence [_convert_one] hands back, from the synthesis
    or from [decompose_once], holds only legal operations, [convert]
    returns the flat list of these operations in order, and calls no
    collaborator beyond the one that built the sequence. *)
Theorem convert_of_legal_parts
    (self : ConvertToCzAndSingleGates) (fuel : nat) (op : Operation Qid)
    (subtrees : list (OP_TREE Qid)) :
  outcome (_convert_one self op) = Returns (Node subtrees) ->
  Forall (fun leaf => is_legal self leaf = true)
    (flat_map flatten_op_tree subtrees) ->
  convert self (S (S fuel)) op =
    {| calls := calls (_convert_one self op);
       outcome :=
         Returns (Node (map Leaf (flat_map flatten_op_tree subtrees))) |}.
Proof.
  intros Hone Hlegal. rewrite Forall_forall in Hlegal.
  rewrite convert_S, (bind_outcome _ _ Hone). cbn [is_ flatten_op_tree].
  rewrite (comprehension_pure (convert self (S fuel)) Leaf).
  - rewrite bind_ret. simpl. rewrite app_nil_r. reflexivity.
  - intros leaf Hin.
    pose proof (_convert_one_legal self leaf (Hlegal leaf Hin)) as Hleaf.
    rewrite convert_unchanged; rewrite Hleaf; reflexivity.
Qed.

(** X7.  A list [convert] returns has one entry for each operation of the
    sequence [_convert_one] handed back, in order, and each entry is what
    [convert] returns for that operation: the results are nested, not
    spliced. *)
Theorem convert_list_result
    (self : ConvertToCzAndSingleGates) (fuel : nat) (op : Operation Qid)
    (results : list (OP_TREE Qid)) :
  outcome (convert self (S fuel) op) = Returns (Node results) ->
  exists subtrees,
    outcome (_convert_one self op) = Returns (Node subtrees) /\
    Forall2 (fun part result =>
               outcome (convert self fuel part) = Returns result)
      (flat_map flatten_op_tree subtrees) results /\
    List.length results =
      List.length (flat_map flatten_op_tree subtrees).
Proof.
  intros H. rewrite convert_S in H.
  apply bind_returns in H. destruct H as [c [Hc Hk]].
  destruct (is_ c op) eqn:Hi.
  - simpl in Hk. injection Hk as ->. discriminate Hi.
  - apply bind_returns in Hk. destruct Hk as [rs [Hrs Hk]].
    simpl in Hk. injection Hk as <-.
    destruct c as [o | subtrees].
    + destruct (_convert_one_leaf self op Hc) as [-> _].
      unfold is_ in Hi. rewrite Nat.eqb_refl in Hi. discriminate Hi.
    + exists subtrees. apply comprehension_returns in Hrs.
      split; [exact Hc | split; [exact Hrs |]].
      symmetry. exact (Forall2_length Hrs).
Qed.

(** X8.  An operation whose decomposition holds the operation itself is
    never converted: [convert] returns at no depth, and with
    [ignore_failures], where nothing raises, every depth is exhausted. *)
Theorem convert_self_decomposition
    (self : ConvertToCzAndSingleGates) (op : Operation Qid)
    (subtrees : list (OP_TREE Qid)) :
  outcome (_convert_one self op) = Returns (Node subtrees) ->
  In op (flat_map flatten_op_tree subtrees) ->
  (forall fuel t, outcome (convert self fuel op) <> Returns t) /\
  (ignore_failures self = true ->
   forall fuel, outcome (convert self fuel op) = OutOfFuel).
Proof.
  intros Hone Hin.
  assert (Hnever : forall fuel t, outcome (convert self fuel op) <> Returns t).
  { induction fuel as [| fuel IH]; intros t H.
    - discriminate H.
    - rewrite (convert_sequence self fuel op Hone) in H.
      destruct (outcome (comprehension (convert self fuel)
                           (flat_map flatten_op_tree subtrees)))
        as [rs | e |] eqn:Hrs; try discriminate H.
      apply comprehension_returns in Hrs.
      destruct (Forall2_in_left _ _ _ op Hrs Hin) as [y [_ Hy]].
      exact (IH y Hy). }
  split; [exact Hnever |].
  intros Hi fuel.
  destruct (outcome (convert self fuel op)) as [t | e |] eqn:H.
  - contradiction (Hnever fuel t).
  - apply convert_raises_inv in H.
    destruct H as [H _]. rewrite Hi in H. discriminate H.
  - reflexivity.
Qed.

(** X9.  [optimization_at] adds nothing to a conversion that fails: it
    calls the collaborators [convert] calls and no other, and it raises
    exactly what [convert] raises, returning no summary then. *)
Theorem optimization_at_failure
    (self : ConvertToCzAndSingleGates) (fuel : nat) (circuit : Circuit Qid)
    (index : Z) (op : Operation Qid) :
  calls (optimization_at self fuel circuit index op) =
    calls (convert self fuel op) /\
  (forall e,
     outcome (optimization_at self fuel circuit index op) = Raises e <->
     outcome (convert self fuel op) = Raises e) /\
  (forall summary,
     outcome (optimization_at self fuel circuit index op) =
       Returns (Some summary) ->
     exists results,
       outcome (convert self fuel op) = Returns (Node results) /\
       new_operations summary = Node results).
Proof.
  unfold optimization_at, bind.
  destruct (outcome (convert self fuel op)) as [t | e' |] eqn:H; simpl.
  - split; [| split].
    + destruct (is_ t op); simpl; apply app_nil_r.
    + intros e. destruct (is_ t op); simpl; split; discriminate.
    + intros summary Hs.
      destruct (convert_returns_shape self fuel op H) as [[-> _] | [rs ->]].
      * unfold is_ in Hs. rewrite Nat.eqb_refl in Hs. discriminate Hs.
      * simpl in Hs. injection Hs as <-. exists rs.
        split; reflexivity.
  - split; [reflexivity | split].
    + intros e. split; intros E; injection E as ->; reflexivity.
    + intros summary Hs. discriminate Hs.
  - split; [reflexivity | split].
    + intros e. split; discriminate.
    + intros summary Hs. discriminate Hs.
Qed.

(** X10.  The tests are tried in order, at every level of the recursion:
    whatever [convert] calls, the synthesis is called without partial CZs
    on the two qubits and the matrix of an operation that is neither a
    kept CZ nor a measurement, and [decompose_once] only on an operation
    that is not legal and has no matrix on two qubits. *)
Theorem convert_calls_warranted
    (self : ConvertToCzAndSingleGates) (fuel : nat) (op : Operation Qid) :
  Forall (warranted self) (calls (convert self fuel op)).
Proof.
  revert op. induction fuel as [| fuel IH]; intros op.
  - constructor.
  - rewrite convert_S.
    apply calls_bind; [apply _convert_one_warranted |].
    intros c _. destruct (is_ c op); [constructor |].
    apply calls_bind.
    + apply calls_comprehension. intros x _. apply IH.
    + intros rs _. constructor.
Qed.

End Further.

(** ** The properties at work in the small world *)

Import Demo.

Lemma convert_leaves_legal_or_passed_through_witness :
  exists t,
    outcome (convert lenient 5 outer) = Returns t /\
    Forall (fun leaf => is_legal lenient leaf = true \/
                        passed_through lenient leaf)
      (flatten_op_tree t).
Proof.
  eexists. split.
  - reflexivity.
  - apply (convert_leaves_legal_or_passed_through lenient 5 outer).
    reflexivity.
Defined.

Lemma convert_unconvertible_witness :
  outcome (convert strict 1 opaque) =
    Raises (TypeError
      ("Don't know how to work with " ++ repr opaque ++ ". "
       ++ "It isn't composite or an operation with a "
       ++ "known unitary effect on 1 or 2 qubits.")) /\
  outcome (convert lenient 1 opaque) = Returns (Leaf opaque).
Proof.
  split.
  - apply (convert_unconvertible strict 0 opaque);
      try reflexivity. left. reflexivity.
  - apply (convert_unconvertible lenient 0 opaque);
      try reflexivity. left. reflexivity.
Defined.

Lemma synthesis_called_without_partial_czs_witness :
  is_legal partial matrix_cz = false /\
  _convert_one partial matrix_cz =
    {| calls := [CallSynthesize 0 1 (CZPow 1) false];
       outcome := Returns (Node (demo_synthesis 0 1 (CZPow 1) false)) |}.
Proof.
  split; [reflexivity |].
  pose proof (synthesis_called_without_partial_czs partial matrix_cz
                (CZPow 1) 0 1 eq_refl eq_refl eq_refl) as H.
  apply H.
Defined.

Lemma optimization_at_summary_witness :
  exists t,
    outcome (convert lenient 5 outer) = Returns t /\
    is_ t outer = false /\
    exists summary,
      outcome (optimization_at lenient 5 [] 0 outer) =
        Returns (Some summary) /\
      clear_span summary = 1%Z /\
      new_operations summary = t /\
      replacement summary = flatten_op_tree t /\
      clear_qubits summary = [0; 1; 2].
Proof.
  eexists. split; [reflexivity |]. split; [reflexivity |].
  apply (optimization_at_summary lenient 5 [] 0%Z outer); reflexivity.
Defined.

Lemma convert_cz_unchanged_witness :
  convert strict 1 cz01 = ret (Leaf cz01) /\
  convert partial 1 cz01 = ret (Leaf cz01).
Proof.
  split.
  - apply (convert_cz_unchanged strict 0 2 (Num 1) [0; 1]). reflexivity.
  - apply (convert_cz_unchanged partial 0 2 (Num 1) [0; 1]). reflexivity.
Defined.

Lemma convert_partial_cz_witness :
  convert partial 1 cz_half = ret (Leaf cz_half) /\
  _convert_one strict cz_half =
    {| calls := [CallSynthesize 0 1 (CZPow (1 # 2)) false];
       outcome := Returns (Node (demo_synthesis 0 1 (CZPow (1 # 2)) false)) |}.
Proof.
  split.
  - pose proof (convert_partial_cz partial 3 (Num (1 # 2)) [0; 1] eq_refl)
      as [H _].
    apply H. reflexivity.
  - pose proof (convert_partial_cz strict 3 (Num (1 # 2)) [0; 1] eq_refl)
      as [_ H].
    destruct (H eq_refl) as [_ [Hsynth _]].
    apply (Hsynth eq_refl (CZPow (1 # 2)) 0 1); reflexivity.
Defined.

(** C6, as stated, fails on a CZ with a symbolic exponent: it has no
    matrix, so without [allow_partial_czs] no synthesis is called for it,
    and with [ignore_failures] it is returned as it is. *)
Lemma symbolic_cz_is_not_synthesized :
  exponent_is_one (Symbol "t") = false /\
  allow_partial_czs lenient = false /\
  existsb is_synthesis (calls (convert lenient 5 cz_sym)) = false /\
  convert lenient 5 cz_sym =
    {| calls := [CallDecomposeOnce cz_sym];
       outcome := Returns (Leaf cz_sym) |} /\
  outcome (convert strict 5 cz_sym) = Raises (unconvertible cz_sym).
Proof. repeat split. Qed.

Lemma convert_idempotent_witness :
  exists t,
    outcome (convert strict 5 ccz) = Returns t /\
    comprehension (convert strict 1) (flatten_op_tree t) =
      ret (map Leaf (flatten_op_tree t)).
Proof.
  eexists. split.
  - reflexivity.
  - pose proof (convert_idempotent strict 5 ccz _ eq_refl) as [_ H].
    apply H. repeat constructor.
Defined.

Lemma convert_single_qubit_unchanged_witness :
  _convert_one strict x0 = ret (Leaf x0) /\
  is_ (Leaf x0) x0 = true /\
  convert strict 1 x0 = ret (Leaf x0) /\
  forall fuel, convert strict (S fuel) x0 = ret (Leaf x0).
Proof.
  apply (convert_single_qubit_unchanged strict x0 PhasedX 0); reflexivity.
Defined.

Lemma cz_test_is_structural_witness :
  unitary matrix_cz = Some (CZPow 1) /\
  is_kept_cz partial matrix_cz = false /\
  forall fuel t,
    outcome (convert partial fuel matrix_cz) = Returns t ->
    is_ t matrix_cz = false /\ exists results, t = Node results.
Proof.
  split; [reflexivity |].
  pose proof (cz_test_is_structural partial matrix_cz (CZPow 1) 0 1
                eq_refl eq_refl eq_refl eq_refl) as H.
  split; [apply H | apply H].
Defined.

Lemma convert_empty_decomposition_witness :
  outcome (convert strict 1 nothing) = Returns (Node []) /\
  outcome (optimization_at strict 1 [] 0 nothing) =
    Returns (Some {| clear_span := 1;
                     new_operations := Node [];
                     clear_qubits := [0] |}).
Proof.
  pose proof (convert_empty_decomposition strict 0 [] 0%Z nothing
                eq_refl eq_refl eq_refl) as H.
  split; apply H.
Defined.

Lemma convert_measurement_unchanged_witness :
  convert strict 1 measure = ret (Leaf measure) /\
  optimization_at strict 1 [] 0 measure = ret None.
Proof.
  apply (convert_measurement_unchanged strict 0 [] 0%Z measure).
  reflexivity.
Defined.

Lemma convert_propagates_failure_witness :
  outcome (convert strict 5 outer) = Raises (unconvertible opaque).
Proof.
  apply (convert_propagates_failure strict 4 outer opaque
           [Leaf ccz; Leaf opaque] [ccz] []).
  - reflexivity.
  - reflexivity.
  - intros y [<- | []]. eexists. reflexivity.
  - reflexivity.
Defined.


Lemma convert_strict_output_legal_witness :
  exists t,
    outcome (convert (__init__ None (Some true)) 5 ccz) = Returns t /\
    Forall (fun leaf => is_legal (__init__ None (Some true)) leaf = true)
      (flatten_op_tree t).
Proof.
  eexists. split.
  - reflexivity.
  - apply (convert_strict_output_legal None (Some true) 5 ccz);
      [discriminate | reflexivity].
Defined.

Lemma convert_strict_output_cz_witness :
  In (GateOperation 101 (CZPowGate (Num 1)) [0; 1])
     (flatten_op_tree
        (Node (demo_synthesis 0 1 (CZPow (1 # 2)) false))) /\
  exponent_is_one (Num 1) = true.
Proof.
  split.
  - simpl. right. left. reflexivity.
  - apply (convert_strict_output_cz None None 5 cz_half
             (Node (demo_synthesis 0 1 (CZPow (1 # 2)) false))
             101 (Num 1) [0; 1]).
    + discriminate.
    + discriminate.
    + reflexivity.
    + simpl. right. left. reflexivity.
    + reflexivity.
    + reflexivity.
Defined.

Lemma convert_of_legal_parts_witness :
  convert strict 2 matrix_cz =
    {| calls := [CallSynthesize 0 1 (CZPow 1) false];
       outcome :=
         Returns
           (Node (map Leaf
                    (flat_map flatten_op_tree
                       (demo_synthesis 0 1 (CZPow 1) false)))) |}.
Proof.
  assert (Hlegal : Forall (fun leaf => is_legal strict leaf = true)
            (flat_map flatten_op_tree (demo_synthesis 0 1 (CZPow 1) false)))
    by repeat constructor.
  exact (convert_of_legal_parts strict 0 matrix_cz
           (demo_synthesis 0 1 (CZPow 1) false) eq_refl Hlegal).
Defined.

Lemma convert_list_result_witness :
  exists results subtrees,
    outcome (convert lenient 5 outer) = Returns (Node results) /\
    outcome (_convert_one lenient outer) = Returns (Node subtrees) /\
    Forall2 (fun part result =>
               outcome (convert lenient 4 part) = Returns result)
      (flat_map flatten_op_tree subtrees) results /\
    List.length results = List.length (flat_map flatten_op_tree subtrees).
Proof.
  assert (H : exists results,
            outcome (convert lenient 5 outer) = Returns (Node results))
    by (eexists; reflexivity).
  destruct H as [results H]. exists results.
  destruct (convert_list_result lenient 4 outer results H)
    as [subtrees Hs].
  exists subtrees. split; [exact H | exact Hs].
Defined.

Lemma convert_self_decomposition_witness :
  (forall fuel t,
     outcome (convert (P := Loop.protocols) strict fuel Loop.again)
       <> Returns t) /\
  (forall fuel,
     outcome (convert (P := Loop.protocols) lenient fuel Loop.again)
       = OutOfFuel).
Proof.
  split.
  - apply (convert_self_decomposition (P := Loop.protocols) strict
             Loop.again [Leaf Loop.readout; Node [Leaf Loop.again]]).
    + reflexivity.
    + simpl. right. left. reflexivity.
  - apply (convert_self_decomposition (P := Loop.protocols) lenient
             Loop.again [Leaf Loop.readout; Node [Leaf Loop.again]]).
    + reflexivity.
    + simpl. right. left. reflexivity.
    + reflexivity.
Defined.
